(** * claude_stream_pretty: a shallow embedding of [scripts/claude_stream_pretty.py]

    The script reads newline-delimited JSON records from standard input and
    renders them on standard output.  Python [str] values are sequences of
    Unicode code points, so a string is a list of code points here; standard
    output is the list of the chunks handed to [sys.stdout.write], in order. *)

From Stdlib Require Import String Ascii List ZArith NArith Lia Bool PrimFloat.
From Equations Require Import Equations.
Import ListNotations.

Set Implicit Arguments.
Set Warnings "-register-all".

(** ** Strings *)

Definition char : Type := N.
Definition str : Type := list char.

(** An ASCII literal of the source as a [str]. *)
Definition ustr (s : string) : str := map N_of_ascii (list_ascii_of_string s).

(** The same for a literal that holds double quotes: the apostrophes of
    [s] stand for them. *)
Definition dq (s : string) : str :=
  map (fun c => if (c =? 39)%N then 34%N else c) (ustr s).

Definition NL : char := 10%N.          (* "\n" *)
Definition ELLIPSIS : char := 8230%N.  (* U+2026, the one-character marker *)

Definition len (s : str) : Z := Z.of_nat (length s).

Definition str_eqb (a b : str) : bool :=
  if list_eq_dec N.eq_dec a b then true else false.

(** [c.isspace()] on one code point, the set [str.strip()] removes. *)
Definition isspace (c : char) : bool :=
  ((9 <=? c) && (c <=? 13) || (28 <=? c) && (c <=? 32)
   || (c =? 133) || (c =? 160) || (c =? 5760)
   || (8192 <=? c) && (c <=? 8202)
   || (c =? 8232) || (c =? 8233) || (c =? 8239) || (c =? 8287)
   || (c =? 12288))%N.

Fixpoint lstrip_by (f : char -> bool) (s : str) : str :=
  match s with
  | c :: s' => if f c then lstrip_by f s' else s
  | [] => []
  end.

Definition rstrip_by (f : char -> bool) (s : str) : str :=
  rev (lstrip_by f (rev s)).

(** [s.strip()] *)
Definition strip (s : str) : str := rstrip_by isspace (lstrip_by isspace s).

(** [s.rstrip("\n")] *)
Definition rstrip_nl (s : str) : str := rstrip_by (N.eqb NL) s.

(** ["\n" in s] *)
Definition contains_nl (s : str) : bool := existsb (N.eqb NL) s.

(** [s.split("\n", 1)]: one element when [s] has no newline, else the text
    before the first newline and the text after it. *)
Fixpoint split_nl_1 (s : str) : list str :=
  match s with
  | [] => [[]]
  | c :: s' =>
      if N.eqb NL c then [[]; s']
      else match split_nl_1 s' with
           | l :: rest => (c :: l) :: rest
           | [] => [[c]]
           end
  end.

(** [s[:k]] *)
Definition slice_to (s : str) (k : Z) : str :=
  if (0 <=? k)%Z then firstn (Z.to_nat k) s
  else firstn (Z.to_nat (len s + k)) s.

(** ** JSON values as Python objects

    [json.loads] yields [None], [bool], [int], [float], [str], [list] and
    [dict] (string keys, insertion order). *)

Inductive json : Type :=
| JNull
| JBool (b : bool)
| JInt (z : Z)
| JFloat (f : float)
| JStr (s : str)
| JArr (l : list json)
| JObj (d : list (str * json)).

(** [bool(v)] *)
Definition truthy (v : json) : bool :=
  match v with
  | JNull => false
  | JBool b => b
  | JInt z => negb (z =? 0)%Z
  | JFloat f => negb (PrimFloat.eqb f PrimFloat.zero)
  | JStr s => match s with [] => false | _ => true end
  | JArr l => match l with [] => false | _ => true end
  | JObj d => match d with [] => false | _ => true end
  end.

(** [a or b] *)
Definition py_or (a b : json) : json := if truthy a then a else b.

(** [v == "literal"] *)
Definition eq_str (v : json) (s : str) : bool :=
  match v with JStr s' => str_eqb s' s | _ => false end.

(** [isinstance(v, dict)] *)
Definition is_dict (v : json) : bool :=
  match v with JObj _ => true | _ => false end.

Fixpoint dict_find (d : list (str * json)) (k : str) : option json :=
  match d with
  | [] => None
  | (k', v) :: d' => if str_eqb k' k then Some v else dict_find d' k
  end.

(** [d.get(k)] on a dict *)
Definition dict_get (d : list (str * json)) (k : str) : json :=
  match dict_find d k with Some v => v | None => JNull end.

(** [_get(d, *keys)] *)
Fixpoint _get (cur : json) (keys : list str) : json :=
  match keys with
  | [] => cur
  | k :: keys' =>
      match cur with
      | JObj d =>
          match dict_find d k with
          | Some v => _get v keys'
          | None => JNull
          end
      | _ => JNull
      end
  end.

(** ** Interpreter built-ins the script calls

    These functions belong to the Python runtime, not to the script; the
    development is parametric in them.  [None] stands for a raised exception. *)

Class Builtins : Type := {
  json_loads : str -> option json;   (* json.loads(line) *)
  json_dumps : json -> option str;   (* json.dumps(v, ensure_ascii=False, separators=(",", ":")) *)
  repr : json -> str;                (* repr(v) *)
  int_of_str : str -> option Z       (* int(s) *)
}.

(** ** Output and exceptions *)

Inductive exn : Type := AttributeError | TypeError | ValueError.

Record Printer : Type := mkPrinter { _buf : str; _tool_input_max : Z }.

(** A computation runs on the [Printer] instance, returns a value or an
    uncaught exception, the updated instance and the chunks it wrote. *)
Definition M (A : Type) : Type := Printer -> (exn + A) * Printer * list str.

Definition ret {A} (a : A) : M A := fun p => (inr a, p, []).
Definition raise {A} (e : exn) : M A := fun p => (inl e, p, []).
Definition bind {A B} (m : M A) (k : A -> M B) : M B :=
  fun p =>
    match m p with
    | (inl e, p1, o1) => (inl e, p1, o1)
    | (inr a, p1, o1) =>
        match k a p1 with
        | (r, p2, o2) => (r, p2, o1 ++ o2)
        end
    end.

Declare Scope py_scope.
Delimit Scope py_scope with py.
Notation "x <- m ;; k" := (bind m (fun x => k))
  (at level 61, m at next level, right associativity) : py_scope.
Notation "m ;; k" := (bind m (fun _ => k))
  (at level 61, right associativity) : py_scope.
Open Scope py_scope.

Definition result {A} (r : (exn + A) * Printer * list str) : exn + A := fst (fst r).
Definition final {A} (r : (exn + A) * Printer * list str) : Printer := snd (fst r).
Definition output {A} (r : (exn + A) * Printer * list str) : list str := snd r.

Definition get_buf : M str := fun p => (inr (_buf p), p, []).
Definition set_buf (b : str) : M unit :=
  fun p => (inr tt, mkPrinter b (_tool_input_max p), []).
Definition get_tool_input_max : M Z := fun p => (inr (_tool_input_max p), p, []).

(** [sys.stdout.write(s)] *)
Definition stdout_write (s : str) : M unit := fun p => (inr tt, p, [s]).

Definition _println (s : str) : M unit := stdout_write (s ++ [NL]).
Definition _print (s : str) : M unit := stdout_write s.

Fixpoint for_each {A} (l : list A) (body : A -> M unit) : M unit :=
  match l with
  | [] => ret tt
  | a :: l' => body a ;; for_each l' body
  end.

(** ** Module-level helpers *)

Definition _truncate (s : str) (n : Z) : str :=
  if (len s <=? n)%Z then s else slice_to s (n - 1) ++ [ELLIPSIS].

(** [str(v)]: a [str] is returned as it is, every other value has
    [str(v) == repr(v)]. *)
Definition py_str `{Builtins} (v : json) : str :=
  match v with JStr s => s | _ => repr v end.

Definition _json_compact `{Builtins} (v : json) (max_len : Z) : str :=
  let s := match json_dumps v with Some s => s | None => repr v end in
  _truncate s max_len.

(** ** class Printer *)

Definition flush : M unit :=
  b <- get_buf ;;
  match b with
  | [] => ret tt
  | _ => _println b ;; set_buf []
  end.

(** The [while "\n" in self._buf] loop of [on_text_delta], on the buffer:
    the outcome, the buffer left and the chunks written. *)
Definition loop_cons (w : str) (r : option exn * str * list str)
  : option exn * str * list str :=
  match r with (e, b, o) => (e, b, w :: o) end.

Lemma split_nl_1_shorter s line rest :
  split_nl_1 s = [line; rest] -> (length rest < length s)%nat.
Proof.
  revert line rest; induction s as [|c s IH]; intros line rest;
    cbn [split_nl_1].
  - discriminate.
  - destruct (N.eqb NL c).
    + intros E; inversion E; subst; simpl; lia.
    + destruct (split_nl_1 s) as [|l [|r [|x t]]] eqn:Es; try discriminate.
      intros E; inversion E; subst.
      specialize (IH l rest eq_refl); simpl; lia.
Qed.

Definition inspect {A} (a : A) : {b : A | a = b} := exist _ a eq_refl.

Equations? while_newline (buf : str) : option exn * str * list str
  by wf (length buf) lt :=
  while_newline buf with inspect (contains_nl buf) := {
    | exist _ false _ => (None, buf, [])
    | exist _ true _ with inspect (split_nl_1 buf) := {
        | exist _ [line; rest] Hs =>
            loop_cons (line ++ [NL]) (while_newline rest)
        | exist _ _ _ => (Some ValueError, buf, []) } }.
Proof. eapply split_nl_1_shorter; eauto. Qed.

(** The loop run on the printer's buffer. *)
Definition while_newline_in_buf : M unit :=
  fun p =>
    match while_newline (_buf p) with
    | (None, b, o) => (inr tt, mkPrinter b (_tool_input_max p), o)
    | (Some e, b, o) => (inl e, mkPrinter b (_tool_input_max p), o)
    end.

(** [on_text_delta(t)]; [self._buf += t] raises unless [t] is a [str]. *)
Definition on_text_delta (t : json) : M unit :=
  match t with
  | JStr s =>
      b <- get_buf ;;
      set_buf (b ++ s) ;;
      while_newline_in_buf
  | _ => raise TypeError
  end.

Section Program.
Context `{B : Builtins}.

Definition on_tool_use (name : str) (tool_input tool_id : json) : M unit :=
  flush ;;
  let suffix := if truthy tool_id then ustr " id=" ++ py_str tool_id else [] in
  _println ([NL] ++ ustr ">>> tool_use " ++ name ++ suffix) ;;
  match tool_input with
  | JNull => ret tt
  | _ => n <- get_tool_input_max ;; _println (_json_compact tool_input n)
  end.

Definition on_final_message (text : str) : M unit :=
  flush ;;
  match strip text with
  | [] => ret tt
  | _ => _println (rstrip_nl text)
  end.

Definition on_result (ok : bool) (result_text : str) : M unit :=
  flush ;;
  let status := if ok then ustr "success" else ustr "error" in
  _println ([NL] ++ ustr "=== " ++ status ++ ustr " ===") ;;
  match strip result_text with
  | [] => ret tt
  | _ => _println (rstrip_nl result_text)
  end.

(** [Printer()]: [os.getenv(key, default)] then [int(...)]. *)
Definition getenv (env : str -> option str) (key default : str) : str :=
  match env key with Some v => v | None => default end.

Definition Printer_init (env : str -> option str) : exn + Printer :=
  match int_of_str (getenv env (ustr "CLAUDE_PRETTY_TOOL_INPUT_MAX") (ustr "800")) with
  | Some n => inr (mkPrinter [] n)
  | None => inl ValueError
  end.

(** ** The dispatcher *)

(** [v.get(k)]: only a dict has the method. *)
Definition dot_get (v : json) (k : str) : M json :=
  match v with
  | JObj d => ret (dict_get d k)
  | _ => raise AttributeError
  end.

(** The values [for block in v] binds: list items, dict keys, the
    characters of a string; other values are not iterable. *)
Definition py_iter (v : json) : M (list json) :=
  match v with
  | JArr l => ret l
  | JObj d => ret (map (fun kv => JStr (fst kv)) d)
  | JStr s => ret (map (fun c => JStr [c]) s)
  | _ => raise TypeError
  end.

Definition on_block (block : json) : M unit :=
  if negb (is_dict block) then ret tt
  else
    bt <- dot_get block (ustr "type") ;;
    if eq_str bt (ustr "tool_use") then
      name <- dot_get block (ustr "name") ;;
      input <- dot_get block (ustr "input") ;;
      id <- dot_get block (ustr "id") ;;
      on_tool_use (py_str (py_or name (JStr (ustr "unknown")))) input id
    else if eq_str bt (ustr "text") then
      text0 <- dot_get block (ustr "text") ;;
      let text := py_or text0 (JStr []) in
      if truthy text then on_final_message (py_str text) else ret tt
    else ret tt.

(** The part of the loop body after a successful [json.loads]. *)
Definition dispatch (obj : json) : M unit :=
  t <- dot_get obj (ustr "type") ;;
  if eq_str t (ustr "stream_event") then
    let delta_type := _get obj [ustr "event"; ustr "delta"; ustr "type"] in
    if eq_str delta_type (ustr "text_delta") then
      let text := py_or (_get obj [ustr "event"; ustr "delta"; ustr "text"]) (JStr []) in
      if truthy text then on_text_delta text else ret tt
    else ret tt
  else if eq_str t (ustr "assistant") then
    msg0 <- dot_get obj (ustr "message") ;;
    let msg := py_or msg0 (JObj []) in
    content0 <- dot_get msg (ustr "content") ;;
    let content := py_or content0 (JArr []) in
    blocks <- py_iter content ;;
    for_each blocks on_block
  else if eq_str t (ustr "result") then
    is_error <- dot_get obj (ustr "is_error") ;;
    let ok := negb (truthy is_error) in
    result0 <- dot_get obj (ustr "result") ;;
    let result_text := py_or result0 (JStr []) in
    on_result ok (py_str result_text)
  else ret tt.

(** The body of [for raw in sys.stdin]. *)
Definition loop_body (raw : str) : M unit :=
  let line := strip raw in
  match line with
  | [] => ret tt
  | _ =>
      match json_loads line with
      | None => flush ;; _println line
      | Some obj => dispatch obj
      end
  end.

(** [main()] on the environment and the lines of standard input: the exit
    status or the uncaught exception, and what was written. *)
Definition main (env : str -> option str) (stdin : list str)
  : (exn + Z) * list str :=
  match Printer_init env with
  | inl e => (inl e, [])
  | inr p =>
      match (for_each stdin loop_body ;; flush ;; ret 0%Z) p with
      | (r, _, out) => (r, out)
      end
  end.

End Program.

(** ** A reference instance of the built-ins

    Concrete versions of the runtime functions, used to run the script on
    concrete inputs.  They follow CPython on the fragment they cover: JSON
    texts and values without floating-point numbers, ASCII digits for
    [int], printable ASCII for [repr] of a string.  Outside it they are
    not CPython's functions: the decoder rejects a number with a fraction
    or an exponent, the serializer yields nothing for a float and [repr]
    a fixed text.  The general theorems do not use this instance. *)

Module Ref.

(** *** Decimal numerals *)

Definition digit_val (c : char) : option Z :=
  if ((48 <=? c) && (c <=? 57))%N then Some (Z.of_N (c - 48)) else None.

Fixpoint uint_chars (u : Decimal.uint) : str :=
  match u with
  | Decimal.Nil => []
  | Decimal.D0 u' => 48%N :: uint_chars u'
  | Decimal.D1 u' => 49%N :: uint_chars u'
  | Decimal.D2 u' => 50%N :: uint_chars u'
  | Decimal.D3 u' => 51%N :: uint_chars u'
  | Decimal.D4 u' => 52%N :: uint_chars u'
  | Decimal.D5 u' => 53%N :: uint_chars u'
  | Decimal.D6 u' => 54%N :: uint_chars u'
  | Decimal.D7 u' => 55%N :: uint_chars u'
  | Decimal.D8 u' => 56%N :: uint_chars u'
  | Decimal.D9 u' => 57%N :: uint_chars u'
  end.

Definition Z_chars (z : Z) : str :=
  match z with
  | Z0 => [48%N]
  | Zpos p => uint_chars (Pos.to_uint p)
  | Zneg p => 45%N :: uint_chars (Pos.to_uint p)
  end.

(** *** [int(s)]: surrounding whitespace, a sign, digits, single
    underscores between digits. *)

Fixpoint int_digits (s : str) (acc : Z) (after_digit : bool) : option Z :=
  match s with
  | [] => if after_digit then Some acc else None
  | c :: s' =>
      match digit_val c with
      | Some d => int_digits s' (10 * acc + d)%Z true
      | None =>
          if ((c =? 95)%N && after_digit)%bool then
            match s' with
            | c' :: _ => match digit_val c' with
                         | Some _ => int_digits s' acc false
                         | None => None
                         end
            | [] => None
            end
          else None
      end
  end.

Definition int_of_str (s : str) : option Z :=
  match strip s with
  | 45%N :: r => option_map Z.opp (int_digits r 0 false)
  | 43%N :: r => int_digits r 0 false
  | r => int_digits r 0 false
  end.

(** *** [json.loads] *)

Definition json_ws (c : char) : bool :=
  ((c =? 32) || (c =? 9) || (c =? 10) || (c =? 13))%N.

Definition hex_val (c : char) : option N :=
  if ((48 <=? c) && (c <=? 57))%N then Some (c - 48)%N
  else if ((97 <=? c) && (c <=? 102))%N then Some (c - 87)%N
  else if ((65 <=? c) && (c <=? 70))%N then Some (c - 55)%N
  else None.

Definition hex4 (s : str) : option (N * str) :=
  match s with
  | a :: b :: c :: d :: r =>
      match hex_val a, hex_val b, hex_val c, hex_val d with
      | Some x, Some y, Some z, Some w =>
          Some ((((x * 16 + y) * 16 + z) * 16 + w)%N, r)
      | _, _, _, _ => None
      end
  | _ => None
  end.

(** The characters of a string literal after its opening quote. *)
Fixpoint parse_chars (fuel : nat) (s : str) (acc : str) : option (str * str) :=
  match fuel with
  | O => None
  | S fuel' =>
      match s with
      | [] => None
      | 34%N :: r => Some (rev acc, r)
      | 92%N :: e :: r =>
          match e with
          | 34%N => parse_chars fuel' r (34%N :: acc)
          | 92%N => parse_chars fuel' r (92%N :: acc)
          | 47%N => parse_chars fuel' r (47%N :: acc)
          | 98%N => parse_chars fuel' r (8%N :: acc)
          | 102%N => parse_chars fuel' r (12%N :: acc)
          | 110%N => parse_chars fuel' r (10%N :: acc)
          | 114%N => parse_chars fuel' r (13%N :: acc)
          | 116%N => parse_chars fuel' r (9%N :: acc)
          | 117%N =>
              match hex4 r with
              | Some (hi, r1) =>
                  if ((55296 <=? hi) && (hi <=? 56319))%N then
                    match r1 with
                    | 92%N :: 117%N :: r2 =>
                        match hex4 r2 with
                        | Some (lo, r3) =>
                            if ((56320 <=? lo) && (lo <=? 57343))%N then
                              parse_chars fuel' r3
                                ((65536 + (hi - 55296) * 1024 + (lo - 56320))%N :: acc)
                            else parse_chars fuel' r1 (hi :: acc)
                        | None => parse_chars fuel' r1 (hi :: acc)
                        end
                    | _ => parse_chars fuel' r1 (hi :: acc)
                    end
                  else parse_chars fuel' r1 (hi :: acc)
              | None => None
              end
          | _ => None
          end
      | c :: r => if (c <? 32)%N then None else parse_chars fuel' r (c :: acc)
      end
  end.

Fixpoint take_digits (s : str) (acc : Z) : Z * str :=
  match s with
  | c :: r => match digit_val c with
              | Some d => take_digits r (10 * acc + d)%Z
              | None => (acc, s)
              end
  | [] => (acc, [])
  end.

(** An integer literal; a fraction or an exponent is outside the fragment. *)
Definition parse_int (s : str) : option (Z * str) :=
  let no_float (r : Z * str) :=
    match snd r with
    | c :: _ => if ((c =? 46) || (c =? 101) || (c =? 69))%N then None else Some r
    | [] => Some r
    end in
  match s with
  | 48%N :: r => no_float (0%Z, r)
  | c :: r => match digit_val c with
              | Some d => no_float (take_digits r d)
              | None => None
              end
  | [] => None
  end.

(** [d[k] = v] on an insertion-ordered dict. *)
Fixpoint dict_set (d : list (str * json)) (k : str) (v : json) : list (str * json) :=
  match d with
  | [] => [(k, v)]
  | (k', v') :: d' =>
      if str_eqb k' k then (k', v) :: d' else (k', v') :: dict_set d' k v
  end.

Section Containers.
Variable parse_value : str -> option (json * str).

Fixpoint parse_elems (fuel : nat) (s : str) (acc : list json)
  : option (list json * str) :=
  match fuel with
  | O => None
  | S fuel' =>
      match parse_value s with
      | Some (v, r) =>
          match lstrip_by json_ws r with
          | 44%N :: r' => parse_elems fuel' r' (v :: acc)
          | 93%N :: r' => Some (rev (v :: acc), r')
          | _ => None
          end
      | None => None
      end
  end.

Fixpoint parse_members (fuel : nat) (s : str) (acc : list (str * json))
  : option (list (str * json) * str) :=
  match fuel with
  | O => None
  | S fuel' =>
      match lstrip_by json_ws s with
      | 34%N :: r =>
          match parse_chars (S (length r)) r [] with
          | Some (k, r1) =>
              match lstrip_by json_ws r1 with
              | 58%N :: r2 =>
                  match parse_value r2 with
                  | Some (v, r3) =>
                      match lstrip_by json_ws r3 with
                      | 44%N :: r4 => parse_members fuel' r4 (dict_set acc k v)
                      | 125%N :: r4 => Some (dict_set acc k v, r4)
                      | _ => None
                      end
                  | None => None
                  end
              | _ => None
              end
          | None => None
          end
      | _ => None
      end
  end.

End Containers.

Fixpoint parse_value (fuel : nat) (s : str) : option (json * str) :=
  match fuel with
  | O => None
  | S fuel' =>
      match lstrip_by json_ws s with
      | 110%N :: 117%N :: 108%N :: 108%N :: r => Some (JNull, r)
      | 116%N :: 114%N :: 117%N :: 101%N :: r => Some (JBool true, r)
      | 102%N :: 97%N :: 108%N :: 115%N :: 101%N :: r => Some (JBool false, r)
      | 34%N :: r =>
          match parse_chars (S (length r)) r [] with
          | Some (t, r') => Some (JStr t, r')
          | None => None
          end
      | 91%N :: r =>
          match lstrip_by json_ws r with
          | 93%N :: r' => Some (JArr [], r')
          | _ =>
              match parse_elems (parse_value fuel') (S (length r)) r [] with
              | Some (l, r') => Some (JArr l, r')
              | None => None
              end
          end
      | 123%N :: r =>
          match lstrip_by json_ws r with
          | 125%N :: r' => Some (JObj [], r')
          | _ =>
              match parse_members (parse_value fuel') (S (length r)) r [] with
              | Some (d, r') => Some (JObj d, r')
              | None => None
              end
          end
      | 45%N :: r =>
          match parse_int r with
          | Some (z, r') => Some (JInt (- z), r')
          | None => None
          end
      | r =>
          match parse_int r with
          | Some (z, r') => Some (JInt z, r')
          | None => None
          end
      end
  end.

Definition json_loads (s : str) : option json :=
  match parse_value (S (length s)) s with
  | Some (v, r) =>
      match lstrip_by json_ws r with
      | [] => Some v
      | _ => None
      end
  | None => None
  end.

(** *** [json.dumps(v, ensure_ascii=False, separators=(",", ":"))] *)

Definition hex_digit (n : N) : char :=
  if (n <? 10)%N then (48 + n)%N else (87 + n)%N.

Definition escape_char (c : char) : str :=
  if (c =? 34)%N then [92; 34]%N
  else if (c =? 92)%N then [92; 92]%N
  else if (c =? 10)%N then [92; 110]%N
  else if (c =? 13)%N then [92; 114]%N
  else if (c =? 9)%N then [92; 116]%N
  else if (c =? 8)%N then [92; 98]%N
  else if (c =? 12)%N then [92; 102]%N
  else if (c <? 32)%N then
    [92; 117; 48; 48; hex_digit (c / 16); hex_digit (c mod 16)]%N
  else [c].

Definition quote (s : str) : str := 34%N :: flat_map escape_char s ++ [34%N].

Fixpoint json_dumps (v : json) : option str :=
  match v with
  | JNull => Some (ustr "null")
  | JBool true => Some (ustr "true")
  | JBool false => Some (ustr "false")
  | JInt z => Some (Z_chars z)
  | JFloat _ => None
  | JStr s => Some (quote s)
  | JArr l =>
      let items :=
        (fix items (l : list json) (first : bool) : option str :=
           match l with
           | [] => Some []
           | x :: l' =>
               match json_dumps x, items l' false with
               | Some a, Some b => Some ((if first then [] else [44%N]) ++ a ++ b)
               | _, _ => None
               end
           end) in
      option_map (fun body => 91%N :: body ++ [93%N]) (items l true)
  | JObj d =>
      let items :=
        (fix items (d : list (str * json)) (first : bool) : option str :=
           match d with
           | [] => Some []
           | (k, x) :: d' =>
               match json_dumps x, items d' false with
               | Some a, Some b =>
                   Some ((if first then [] else [44%N]) ++ quote k ++ [58%N] ++ a ++ b)
               | _, _ => None
               end
           end) in
      option_map (fun body => 123%N :: body ++ [125%N]) (items d true)
  end.

(** *** [repr(v)] *)

Definition repr_str (s : str) : str :=
  let q : char :=
    if (existsb (N.eqb 39) s && negb (existsb (N.eqb 34) s))%bool
    then 34%N else 39%N in
  let esc (c : char) : str :=
    if ((c =? 92) || (c =? q))%N then [92%N; c]
    else if (c =? 10)%N then [92; 110]%N
    else if (c =? 13)%N then [92; 114]%N
    else if (c =? 9)%N then [92; 116]%N
    else if ((c <? 32) || (c =? 127))%N then
      [92%N; 120%N; hex_digit (c / 16); hex_digit (c mod 16)]
    else [c] in
  q :: flat_map esc s ++ [q].

Fixpoint repr (v : json) : str :=
  match v with
  | JNull => ustr "None"
  | JBool true => ustr "True"
  | JBool false => ustr "False"
  | JInt z => Z_chars z
  | JFloat _ => ustr "nan"
  | JStr s => repr_str s
  | JArr l =>
      let items :=
        (fix items (l : list json) (first : bool) : str :=
           match l with
           | [] => []
           | x :: l' => (if first then [] else ustr ", ") ++ repr x ++ items l' false
           end) in
      91%N :: items l true ++ [93%N]
  | JObj d =>
      let items :=
        (fix items (d : list (str * json)) (first : bool) : str :=
           match d with
           | [] => []
           | (k, x) :: d' =>
               (if first then [] else ustr ", ")
                 ++ repr_str k ++ ustr ": " ++ repr x ++ items d' false
           end) in
      123%N :: items d true ++ [125%N]
  end.

Definition builtins : Builtins :=
  Build_Builtins json_loads json_dumps repr int_of_str.

End Ref.

(** * Definitions the properties are stated with *)

(** ** Splitting at newlines, in the words of the specification *)

(** [s.split("\n")]: the maximal newline-free pieces of [s], in order. *)
Fixpoint split_nl (s : str) : list str :=
  match s with
  | [] => [[]]
  | c :: s' =>
      if N.eqb NL c then [] :: split_nl s'
      else match split_nl s' with
           | l :: rest => (c :: l) :: rest
           | [] => [[c]]
           end
  end.

(** The complete lines of a text and the unterminated remainder. *)
Definition complete_lines (s : str) : list str := removelast (split_nl s).
Definition remainder (s : str) : str := last (split_nl s) [].

(** The text of an ASCII literal with double quotes is written with [dq];
    the three input lines of the end-to-end example and the records they
    decode to. *)
Definition example_line_1 : str :=
  dq "{'type':'stream_event','event':{'delta':{'type':'text_delta','text':'Hello'}}}".
Definition example_line_2 : str :=
  dq "{'type':'stream_event','event':{'delta':{'type':'text_delta','text':' world\n'}}}".
Definition example_line_3 : str :=
  dq "{'type':'result','is_error':false,'result':'done'}".

Definition text_delta_record (text : json) : json :=
  JObj [(ustr "type", JStr (ustr "stream_event"));
        (ustr "event",
         JObj [(ustr "delta",
                JObj [(ustr "type", JStr (ustr "text_delta"));
                      (ustr "text", text)])])].

Definition example_record_1 : json := text_delta_record (JStr (ustr "Hello")).
Definition example_record_2 : json :=
  text_delta_record (JStr (ustr " world" ++ [NL])).
Definition example_record_3 : json :=
  JObj [(ustr "type", JStr (ustr "result"));
        (ustr "is_error", JBool false);
        (ustr "result", JStr (ustr "done"))].

Definition LIMIT_VAR : str := ustr "CLAUDE_PRETTY_TOOL_INPUT_MAX".

Definition no_env : str -> option str := fun _ => None.

Section Statements.
Context `{B : Builtins}.





(** ** The printer's operations as a sequence *)



End Statements.



(** * Properties *)

Lemma str_eqb_eq a b : str_eqb a b = true <-> a = b.
Proof. unfold str_eqb; destruct (list_eq_dec N.eq_dec a b); split; congruence. Qed.

Local Arguments N.eqb : simpl never.

(** ** Running computations *)

Lemma bind_inr {A C} (m : M A) (k : A -> M C) p a p1 o1 :
  m p = (inr a, p1, o1) ->
  bind m k p = (result (k a p1), final (k a p1), o1 ++ output (k a p1)).
Proof.
  intros E; unfold bind, result, final, output; rewrite E.
  destruct (k a p1) as [[r p2] o2]; reflexivity.
Qed.

Lemma bind_inl {A C} (m : M A) (k : A -> M C) p e p1 o1 :
  m p = (inl e, p1, o1) -> bind m k p = (inl e, p1, o1).
Proof. intros E; unfold bind; rewrite E; reflexivity. Qed.

Lemma triple_eta {A} (r : (exn + A) * Printer * list str) :
  r = (result r, final r, output r).
Proof. destruct r as [[? ?] ?]; reflexivity. Qed.

Lemma split_nl_cons s : exists l rest, split_nl s = l :: rest.
Proof.
  destruct s as [|c s]; simpl; [eauto|].
  destruct (N.eqb NL c); [eauto|].
  destruct (split_nl s); eauto.
Qed.

Lemma no_newline_split s :
  contains_nl s = false -> split_nl s = [s] /\ split_nl_1 s = [s].
Proof.
  induction s as [|c s IH]; simpl; [auto|].
  destruct (N.eqb NL c); simpl; [discriminate|].
  intros H; destruct (IH H) as [-> ->]; auto.
Qed.

Lemma newline_split s :
  contains_nl s = true ->
  exists line rest,
    split_nl_1 s = [line; rest] /\ split_nl s = line :: split_nl rest.
Proof.
  induction s as [|c s IH]; simpl; [discriminate|].
  destruct (N.eqb NL c); simpl.
  - intros _; exists [], s; auto.
  - intros H; destruct (IH H) as (line & rest & -> & ->).
    exists (c :: line), rest; auto.
Qed.

Lemma removelast_cons {A} (a : A) (l : list A) :
  l <> [] -> removelast (a :: l) = a :: removelast l.
Proof. destruct l; [congruence | reflexivity]. Qed.

Lemma last_cons {A} (a : A) (l : list A) d :
  l <> [] -> last (a :: l) d = last l d.
Proof. destruct l; [congruence | reflexivity]. Qed.

Lemma split_nl_nonempty s : split_nl s <> [].
Proof. destruct (split_nl_cons s) as (l & rest & ->); discriminate. Qed.

(** The loop of [on_text_delta] ends without an exception, writes the
    complete lines of the buffer and leaves its remainder. *)
Lemma while_newline_spec buf :
  while_newline buf =
    (None, remainder buf, map (fun l => l ++ [NL]) (complete_lines buf)).
Proof.
  unfold remainder, complete_lines.
  funelim (while_newline buf).
  - destruct (no_newline_split buf) as [-> _]; [assumption | reflexivity].
  - destruct (newline_split buf) as (l' & r' & E1 & E2); [assumption|].
    congruence.
  - destruct (newline_split buf) as (l' & r' & E1 & E2); [assumption|].
    congruence.
  - destruct (newline_split buf) as (l' & r' & E1 & E2); [assumption|].
    assert (l' = line /\ r' = rest) as [-> ->] by (split; congruence).
    match goal with IH : while_newline rest = _ |- _ => rewrite IH end.
    rewrite E2, removelast_cons, last_cons by apply split_nl_nonempty.
    reflexivity.
  - destruct (newline_split buf) as (l' & r' & E1 & E2); [assumption|].
    congruence.
Qed.

Lemma remainder_no_newline s : contains_nl (remainder s) = false.
Proof.
  unfold remainder; induction s as [|c s IH]; simpl; [reflexivity|].
  destruct (N.eqb NL c) eqn:Ec.
  - rewrite last_cons by apply split_nl_nonempty; exact IH.
  - destruct (split_nl s) as [|l [|l' rest]]; simpl in *.
    + rewrite Ec; reflexivity.
    + rewrite Ec; exact IH.
    + exact IH.
Qed.








(** ** [flush] and [on_text_delta] *)

Lemma flush_run p :
  flush p =
    match _buf p with
    | [] => (inr tt, p, [])
    | b => (inr tt, mkPrinter [] (_tool_input_max p), [b ++ [NL]])
    end.
Proof. unfold flush, bind, get_buf; destruct (_buf p); reflexivity. Qed.

Lemma flush_result p : result (flush p) = inr tt.
Proof. rewrite flush_run; destruct (_buf p); reflexivity. Qed.


Lemma flush_max p : _tool_input_max (final (flush p)) = _tool_input_max p.
Proof. rewrite flush_run; destruct (_buf p); reflexivity. Qed.

Lemma flush_final p : final (flush p) = mkPrinter [] (_tool_input_max p).
Proof.
  rewrite flush_run; destruct p as [b n]; destruct b; reflexivity.
Qed.

Lemma flush_eta p :
  flush p = (inr tt, mkPrinter [] (_tool_input_max p), output (flush p)).
Proof.
  rewrite (triple_eta (flush p)) at 1.
  rewrite flush_result, flush_final; reflexivity.
Qed.

Lemma on_text_delta_str s p :
  on_text_delta (JStr s) p =
    (inr tt,
     mkPrinter (remainder (_buf p ++ s)) (_tool_input_max p),
     map (fun l => l ++ [NL]) (complete_lines (_buf p ++ s))).
Proof.
  unfold on_text_delta, bind, get_buf, set_buf, while_newline_in_buf.
  cbn [_buf _tool_input_max]; rewrite while_newline_spec; reflexivity.
Qed.



(** C9: [flush] on an empty buffer writes nothing and returns the printer
    as it was; on any buffer, two flushes in a row give the result, the
    printer and the output of one. *)
Theorem flush_idempotent (b : str) (n : Z) :
  flush (mkPrinter [] n) = (inr tt, mkPrinter [] n, []) /\
  (flush ;; flush) (mkPrinter b n) = flush (mkPrinter b n).
Proof.
  split; [reflexivity|].
  unfold bind; rewrite !flush_run; simpl.
  destruct b; reflexivity.
Qed.

(** ** Stripping *)

Lemma lstrip_by_nil f s : lstrip_by f s = [] <-> forallb f s = true.
Proof.
  induction s as [|c s IH]; simpl; [tauto|].
  destruct (f c); simpl; [exact IH | split; discriminate].
Qed.

Lemma lstrip_by_head f s c s' : lstrip_by f s = c :: s' -> f c = false.
Proof.
  induction s as [|a s IH]; simpl; [discriminate|].
  destruct (f a) eqn:Ea; [exact IH|].
  intros E; inversion E; subst; exact Ea.
Qed.


Lemma forallb_rev {A} (f : A -> bool) l : forallb f (rev l) = forallb f l.
Proof.
  induction l as [|a l IH]; simpl; [reflexivity|].
  rewrite forallb_app, IH; simpl; rewrite andb_true_r; apply andb_comm.
Qed.

Lemma rstrip_by_nil f s : rstrip_by f s = [] <-> forallb f s = true.
Proof.
  unfold rstrip_by; rewrite <- (forallb_rev f s), <- lstrip_by_nil.
  split; intros H.
  - apply (f_equal (@rev char)) in H; rewrite rev_involutive in H; exact H.
  - rewrite H; reflexivity.
Qed.

(** [s.strip()] is empty exactly when [s] holds only whitespace. *)
Lemma strip_nil s : strip s = [] <-> forallb isspace s = true.
Proof.
  unfold strip; rewrite rstrip_by_nil; split; intros H.
  - destruct (lstrip_by isspace s) as [|c s'] eqn:E.
    + apply lstrip_by_nil; exact E.
    + apply lstrip_by_head in E; simpl in H; rewrite E in H; discriminate.
  - apply lstrip_by_nil in H; rewrite H; reflexivity.
Qed.


Section Rendering.
Context `{B : Builtins}.

Lemma bind_ret {A C} (a : A) (k : A -> M C) p : bind (ret a) k p = k a p.
Proof. unfold bind, ret; destruct (k a p) as [[? ?] ?]; reflexivity. Qed.

(** ** The three render operations *)





End Rendering.

Section PrinterProperties.
Context `{B : Builtins}.





(** ** Records with discriminant ["result"] *)






(** ** Truncation of the tool input *)

Lemma slice_to_nonneg s k :
  (0 <= k)%Z -> slice_to s k = firstn (Z.to_nat k) s.
Proof.
  intros H; unfold slice_to.
  destruct (0 <=? k)%Z eqn:E; [reflexivity|].
  apply Z.leb_gt in E; lia.
Qed.

Lemma _truncate_within s n : (len s <= n)%Z -> _truncate s n = s.
Proof.
  intros H; unfold _truncate.
  apply Z.leb_le in H; rewrite H; reflexivity.
Qed.

Lemma _truncate_beyond s n :
  (1 <= n)%Z -> (n < len s)%Z ->
  _truncate s n = firstn (Z.to_nat (n - 1)) s ++ [ELLIPSIS] /\
  len (_truncate s n) = n.
Proof.
  intros H1 H2; unfold _truncate.
  destruct (len s <=? n)%Z eqn:E; [apply Z.leb_le in E; lia|].
  rewrite slice_to_nonneg by lia; split; [reflexivity|].
  unfold len in *; rewrite length_app, firstn_length_le; simpl; lia.
Qed.


(** ** Lines that do not decode *)

Lemma loop_body_undecodable raw p :
  strip raw <> [] ->
  json_loads (strip raw) = None ->
  loop_body raw p =
    (inr tt, mkPrinter [] (_tool_input_max p),
     output (flush p) ++ [strip raw ++ [NL]]).
Proof.
  intros Hne Hload; unfold loop_body.
  destruct (strip raw) as [|c l] eqn:E; [congruence|].
  rewrite Hload.
  erewrite bind_inr by apply flush_eta.
  reflexivity.
Qed.


End PrinterProperties.

(** ** The end-to-end example *)

Section EndToEnd.
Context `{B : Builtins}.

Lemma for_each_step {A} (body : A -> M unit) a l p p1 o1 :
  body a p = (inr tt, p1, o1) ->
  for_each (a :: l) body p =
    (result (for_each l body p1), final (for_each l body p1),
     o1 ++ output (for_each l body p1)).
Proof.
  intros E; cbn [for_each].
  exact (@bind_inr _ _ (body a) (fun _ => for_each l body) p tt p1 o1 E).
Qed.

Lemma loop_body_decoded raw line obj p :
  strip raw = line -> line <> [] -> json_loads line = Some obj ->
  loop_body raw p = dispatch obj p.
Proof.
  intros <- Hne Hload; unfold loop_body.
  destruct (strip raw); [congruence|].
  rewrite Hload; reflexivity.
Qed.

(** C6: when the limit resolves and [json.loads] decodes the three
    lines of the example to the three records, [main] exits with status 0
    and writes three chunks which read, as lines, [Hello world], an empty
    line, [=== success ===] and [done]. *)
Theorem end_to_end_example (env : str -> option str) (n : Z) :
  int_of_str (getenv env (ustr "CLAUDE_PRETTY_TOOL_INPUT_MAX") (ustr "800")) = Some n ->
  json_loads example_line_1 = Some example_record_1 ->
  json_loads example_line_2 = Some example_record_2 ->
  json_loads example_line_3 = Some example_record_3 ->
  let stdin := [example_line_1 ++ [NL]; example_line_2 ++ [NL]; example_line_3 ++ [NL]] in
  main env stdin =
    (inr 0%Z,
     [ustr "Hello world" ++ [NL];
      [NL] ++ ustr "=== success ===" ++ [NL];
      ustr "done" ++ [NL]]) /\
  concat (snd (main env stdin)) =
    ustr "Hello world" ++ [NL] ++ [NL]
      ++ ustr "=== success ===" ++ [NL] ++ ustr "done" ++ [NL].
Proof.
  intros Hint H1 H2 H3 stdin.
  assert (E : main env stdin =
    (inr 0%Z,
     [ustr "Hello world" ++ [NL];
      [NL] ++ ustr "=== success ===" ++ [NL];
      ustr "done" ++ [NL]])).
  { assert (D1 : loop_body (example_line_1 ++ [NL]) (mkPrinter [] n) =
                 (inr tt, mkPrinter (ustr "Hello") n, [])).
    { rewrite (@loop_body_decoded _ example_line_1 example_record_1)
        by (reflexivity || discriminate || assumption).
      reflexivity. }
    assert (D2 : loop_body (example_line_2 ++ [NL]) (mkPrinter (ustr "Hello") n) =
                 (inr tt, mkPrinter [] n, [ustr "Hello world" ++ [NL]])).
    { rewrite (@loop_body_decoded _ example_line_2 example_record_2)
        by (reflexivity || discriminate || assumption).
      reflexivity. }
    assert (D3 : loop_body (example_line_3 ++ [NL]) (mkPrinter [] n) =
                 (inr tt, mkPrinter [] n,
                  [[NL] ++ ustr "=== success ===" ++ [NL]; ustr "done" ++ [NL]])).
    { rewrite (@loop_body_decoded _ example_line_3 example_record_3)
        by (reflexivity || discriminate || assumption).
      reflexivity. }
    unfold main, Printer_init; rewrite Hint; subst stdin.
    unfold bind at 1.
    rewrite (@for_each_step _ _ _ _ _ _ _ D1),
      (@for_each_step _ _ _ _ _ _ _ D2), (@for_each_step _ _ _ _ _ _ _ D3).
    reflexivity. }
  split; [exact E | rewrite E; reflexivity].
Qed.

End EndToEnd.

(** C6, an instance: the override unset and the reference decoder run on
    the three texts. *)
Lemma end_to_end_example_witness :
  let env : str -> option str := fun _ => None in
  let stdin := [example_line_1 ++ [NL]; example_line_2 ++ [NL]; example_line_3 ++ [NL]] in
  (@int_of_str Ref.builtins
     (getenv env (ustr "CLAUDE_PRETTY_TOOL_INPUT_MAX") (ustr "800")) = Some 800%Z /\
   @json_loads Ref.builtins example_line_1 = Some example_record_1 /\
   @json_loads Ref.builtins example_line_2 = Some example_record_2 /\
   @json_loads Ref.builtins example_line_3 = Some example_record_3) /\
  concat (snd (main (B := Ref.builtins) env stdin)) =
    ustr "Hello world" ++ [NL] ++ [NL]
      ++ ustr "=== success ===" ++ [NL] ++ ustr "done" ++ [NL].
Proof.
  intros env stdin.
  split; [repeat split|].
  apply (@end_to_end_example Ref.builtins env 800%Z); reflexivity.
Defined.

(** ** Records of an unexpected shape *)

Section Faults.
Context `{B : Builtins}.

(** A decoded value that is not a dict has no [get] method: the first
    statement after [json.loads] raises, and nothing catches it. *)
Lemma dispatch_non_dict v p :
  is_dict v = false -> dispatch v p = (inl AttributeError, p, []).
Proof. destruct v; try discriminate; reflexivity. Qed.

Lemma main_non_object_line env p raw v rest :
  Printer_init env = inr p ->
  strip raw <> [] ->
  json_loads (strip raw) = Some v ->
  is_dict v = false ->
  main env (raw :: rest) = (inl AttributeError, []).
Proof.
  intros Hp Hne Hload Hv; unfold main; rewrite Hp.
  unfold bind at 1; cbn [for_each].
  erewrite bind_inl; [reflexivity|].
  rewrite (@loop_body_decoded _ raw (strip raw) v) by auto.
  apply dispatch_non_dict, Hv.
Qed.

(** A text delta whose [text] is truthy and not a [str] reaches
    [self._buf += t], which raises. *)
Lemma dispatch_text_delta_non_str v p :
  truthy v = true -> (forall s, v <> JStr s) ->
  dispatch (text_delta_record v) p = (inl TypeError, p, []).
Proof.
  intros Ht Hs; unfold dispatch.
  change (dot_get (text_delta_record v) (ustr "type"))
    with (@ret json (JStr (ustr "stream_event"))).
  rewrite bind_ret.
  change (eq_str (JStr (ustr "stream_event")) (ustr "stream_event")) with true.
  change (_get (text_delta_record v) [ustr "event"; ustr "delta"; ustr "type"])
    with (JStr (ustr "text_delta")).
  change (_get (text_delta_record v) [ustr "event"; ustr "delta"; ustr "text"])
    with v.
  change (eq_str (JStr (ustr "text_delta")) (ustr "text_delta")) with true.
  cbv beta iota zeta.
  unfold py_or; rewrite Ht, Ht.
  destruct v; try reflexivity.
  exfalso; eapply Hs; reflexivity.
Qed.

(** ** Start-up *)

Lemma startup_default env :
  env LIMIT_VAR = None ->
  int_of_str (ustr "800") = Some 800%Z ->
  Printer_init env = inr (mkPrinter [] 800).
Proof.
  intros He Hi; unfold Printer_init, getenv; fold LIMIT_VAR.
  rewrite He, Hi; reflexivity.
Qed.

Lemma startup_fault env v stdin :
  env LIMIT_VAR = Some v ->
  int_of_str v = None ->
  main env stdin = (inl ValueError, []).
Proof.
  intros He Hi; unfold main, Printer_init, getenv; fold LIMIT_VAR.
  rewrite He, Hi; reflexivity.
Qed.

End Faults.

(** ** Concrete runs *)

(** C2: with the reference built-ins, a well-formed JSON line that is
    not an object makes [main] end in an uncaught [AttributeError], and a
    text delta whose [text] is a number makes it end in an uncaught
    [TypeError]; in both runs the result record that follows is never
    rendered. *)
Theorem malformed_shapes_raise :
  main (B := Ref.builtins) no_env
    [dq "[]" ++ [NL]; example_line_3 ++ [NL]] = (inl AttributeError, []) /\
  main (B := Ref.builtins) no_env
    [dq "{'type':'stream_event','event':{'delta':{'type':'text_delta','text':5}}}"
       ++ [NL];
     example_line_3 ++ [NL]] = (inl TypeError, []).
Proof. split; vm_compute; reflexivity. Qed.

(** C8: with the override unset the limit is 800 and start-up succeeds,
    yet a line of the input stream (a JSON string) ends the process with an
    uncaught exception: the start-up fault is not the only failure. *)
Theorem stream_content_fault_after_startup :
  Printer_init (B := Ref.builtins) no_env = inr (mkPrinter [] 800) /\
  main (B := Ref.builtins) no_env [dq "'x'" ++ [NL]] = (inl AttributeError, []).
Proof. split; vm_compute; reflexivity. Qed.






(** * Further properties of the script *)

(** ** [_get] *)

Lemma _get_None keys : _get JNull keys = JNull.
Proof. destruct keys; reflexivity. Qed.

Lemma _get_path v keys1 keys2 :
  _get v (keys1 ++ keys2) = _get (_get v keys1) keys2.
Proof.
  revert v; induction keys1 as [|k keys1 IH]; intros v; [reflexivity|].
  cbn [app _get].
  destruct v; try (symmetry; apply _get_None).
  destruct (dict_find d k); [apply IH | symmetry; apply _get_None].
Qed.

(** X1: looking up a path of keys is looking up its first part and then
    the rest from the value found; from [None] every path gives [None]. *)
Theorem _get_app (v : json) (keys1 keys2 : list str) :
  _get v (keys1 ++ keys2) = _get (_get v keys1) keys2 /\
  _get JNull keys2 = JNull.
Proof. split; [apply _get_path | apply _get_None]. Qed.

(** X2: when the value reached along a path is not a dict, or is a dict
    without the next key, every longer path gives [None]. *)
Theorem _get_missing (v : json) (keys1 : list str) (k : str) (keys2 : list str) :
  (forall d, _get v keys1 = JObj d -> dict_find d k = None) ->
  _get v (keys1 ++ k :: keys2) = JNull.
Proof.
  intros H; rewrite _get_path; cbn [_get].
  destruct (_get v keys1) as [| | | | | |d]; try reflexivity.
  rewrite (H d eq_refl); reflexivity.
Qed.

(** X2, an instance. *)
Lemma _get_missing_witness :
  let v := JObj [(ustr "event", JStr (ustr "ping"))] in
  (forall d, _get v [ustr "event"] = JObj d -> dict_find d (ustr "delta") = None) /\
  _get v ([ustr "event"] ++ ustr "delta" :: [ustr "type"]) = JNull.
Proof.
  intros v.
  assert (H : forall d, _get v [ustr "event"] = JObj d ->
                        dict_find d (ustr "delta") = None)
    by (intros d E; vm_compute in E; discriminate E).
  split; [exact H | exact (@_get_missing v [ustr "event"] (ustr "delta") [ustr "type"] H)].
Defined.

(** ** [_truncate] *)

Lemma len_nonneg s : (0 <= len s)%Z.
Proof. unfold len; lia. Qed.

Lemma _truncate_len_min s n :
  (1 <= n)%Z -> len (_truncate s n) = Z.min (len s) n.
Proof.
  intros Hn.
  destruct (Z_le_gt_dec (len s) n) as [Hle | Hgt].
  - rewrite _truncate_within by assumption; lia.
  - destruct (@_truncate_beyond s n Hn) as [_ Hlen]; lia.
Qed.

(** X3: for a limit of at least 1, the result has the length of the text
    or the limit, whichever is less, and truncating it again changes
    nothing. *)
Theorem _truncate_length (s : str) (n : Z) :
  (1 <= n)%Z ->
  len (_truncate s n) = Z.min (len s) n /\
  _truncate (_truncate s n) n = _truncate s n.
Proof.
  intros Hn; split; [apply _truncate_len_min, Hn|].
  apply _truncate_within; rewrite _truncate_len_min by exact Hn; lia.
Qed.

(** X3, an instance. *)
Lemma _truncate_length_witness :
  (1 <= 4)%Z /\
  len (_truncate (ustr "abcdefgh") 4) = Z.min (len (ustr "abcdefgh")) 4 /\
  _truncate (_truncate (ustr "abcdefgh") 4) 4 = _truncate (ustr "abcdefgh") 4.
Proof. split; [lia | apply (@_truncate_length (ustr "abcdefgh") 4); lia]. Defined.

(** X4: for a limit that is not negative the result is never longer
    than the text; with the limit 0 a text that is not empty keeps its
    length, its last character replaced by the marker. *)
Theorem _truncate_never_longer (s : str) (n : Z) :
  (0 <= n)%Z ->
  (len (_truncate s n) <= len s)%Z /\
  (n = 0%Z -> s <> [] -> _truncate s n = removelast s ++ [ELLIPSIS]).
Proof.
  intros Hn; split.
  - destruct (Z.eq_dec n 0) as [-> | Hnz].
    + unfold _truncate, slice_to.
      destruct (len s <=? 0)%Z eqn:E; [lia|].
      apply Z.leb_gt in E; cbn [Z.sub Z.opp Z.add Z.leb Z.compare].
      unfold len in *; rewrite length_app, length_firstn; simpl; lia.
    + pose proof (@_truncate_len_min s n); lia.
  - intros -> Hs; unfold _truncate, slice_to.
    destruct (len s <=? 0)%Z eqn:E.
    + apply Z.leb_le in E; unfold len in E; destruct s; [congruence | simpl in E; lia].
    + cbn [Z.sub Z.opp Z.add Z.leb Z.compare]; f_equal.
      rewrite removelast_firstn_len; f_equal.
      unfold len; lia.
Qed.

(** X4, an instance. *)
Lemma _truncate_never_longer_witness :
  (0 <= 0)%Z /\
  (len (_truncate (ustr "{}") 0) <= len (ustr "{}"))%Z /\
  (0%Z = 0%Z -> ustr "{}" <> [] ->
   _truncate (ustr "{}") 0 = removelast (ustr "{}") ++ [ELLIPSIS]).
Proof. split; [lia | apply (@_truncate_never_longer (ustr "{}") 0); lia]. Defined.

(** ** What every run of the dispatcher keeps *)

(** A chunk that ends with a newline. *)
Definition ends_nl (chunk : str) : Prop := exists l, chunk = l ++ [NL].

(** A computation that writes whole lines only, never ends in a
    [ValueError], leaves no newline in a buffer that held none, and does
    not change the limit. *)
Definition well_behaved {A} (m : M A) : Prop :=
  forall p,
    Forall ends_nl (output (m p)) /\
    result (m p) <> inl ValueError /\
    (contains_nl (_buf p) = false -> contains_nl (_buf (final (m p))) = false) /\
    _tool_input_max (final (m p)) = _tool_input_max p.

Ltac unfold_run := unfold result, final, output; cbn [fst snd].

Lemma well_behaved_ret {A} (a : A) : well_behaved (ret a).
Proof.
  intros p; unfold ret; unfold_run.
  split; [apply Forall_nil | split; [discriminate | split; [intros H; exact H | reflexivity]]].
Qed.

Lemma well_behaved_raise {A} e : e <> ValueError -> well_behaved (@raise A e).
Proof.
  intros He p; unfold raise; unfold_run.
  split; [apply Forall_nil | split; [congruence | split; [intros H; exact H | reflexivity]]].
Qed.

Lemma well_behaved_bind {A C} (m : M A) (k : A -> M C) :
  well_behaved m -> (forall a, well_behaved (k a)) -> well_behaved (bind m k).
Proof.
  intros Hm Hk p; destruct (Hm p) as (Ho & Hr & Hb & Hl).
  unfold bind; destruct (m p) as [[[e | a] p1] o1];
    unfold result, final, output in *; cbn [fst snd] in *.
  - split; [assumption | split; [|split; assumption]].
    intros H; apply Hr; inversion H; reflexivity.
  - destruct (Hk a p1) as (Ho2 & Hr2 & Hb2 & Hl2).
    destruct (k a p1) as [[r p2] o2];
      unfold result, final, output in *; cbn [fst snd] in *.
    split; [apply Forall_app; auto | split; [assumption | split]].
    + intros H; apply Hb2, Hb, H.
    + congruence.
Qed.

Lemma well_behaved__println s : well_behaved (_println s).
Proof.
  intros p; unfold _println, stdout_write; unfold_run.
  split; [| split; [discriminate | split; [intros H; exact H | reflexivity]]].
  repeat constructor; exists s; reflexivity.
Qed.

Lemma well_behaved_flush : well_behaved flush.
Proof.
  intros p; rewrite flush_run; destruct (_buf p) as [|c b] eqn:E;
    unfold_run.
  - split; [apply Forall_nil | split; [discriminate | split; [| reflexivity]]].
    intros _; rewrite E; reflexivity.
  - split; [| split; [discriminate | split; reflexivity]].
    repeat constructor; exists (c :: b); reflexivity.
Qed.

Lemma well_behaved_on_text_delta t : well_behaved (on_text_delta t).
Proof.
  destruct t; try (apply well_behaved_raise; discriminate).
  intros p; rewrite on_text_delta_str; unfold_run; split; [| split; [| split]].
  - apply Forall_forall; intros chunk Hin.
    apply in_map_iff in Hin as (l & <- & _); exists l; reflexivity.
  - discriminate.
  - intros _; apply remainder_no_newline.
  - reflexivity.
Qed.

Lemma well_behaved_for_each {A} (l : list A) (body : A -> M unit) :
  (forall a, well_behaved (body a)) -> well_behaved (for_each l body).
Proof.
  intros Hb; induction l as [|a l IH]; cbn [for_each].
  - apply well_behaved_ret.
  - apply well_behaved_bind; auto.
Qed.

Section Dispatcher.
Context `{B : Builtins}.

Lemma well_behaved_on_tool_use name input id :
  well_behaved (on_tool_use name input id).
Proof.
  unfold on_tool_use.
  apply well_behaved_bind; [apply well_behaved_flush | intros _].
  apply well_behaved_bind; [apply well_behaved__println | intros _].
  destruct input; try apply well_behaved_ret;
    (apply well_behaved_bind;
     [intros p; unfold get_tool_input_max; unfold_run;
      split; [apply Forall_nil | split; [discriminate | split; [intros H; exact H | reflexivity]]]
     | intros n; apply well_behaved__println]).
Qed.

Lemma well_behaved_on_final_message text :
  well_behaved (on_final_message text).
Proof.
  unfold on_final_message.
  apply well_behaved_bind; [apply well_behaved_flush | intros _].
  destruct (strip text); [apply well_behaved_ret | apply well_behaved__println].
Qed.

Lemma well_behaved_on_result ok text : well_behaved (on_result ok text).
Proof.
  unfold on_result.
  apply well_behaved_bind; [apply well_behaved_flush | intros _].
  apply well_behaved_bind; [apply well_behaved__println | intros _].
  destruct (strip text); [apply well_behaved_ret | apply well_behaved__println].
Qed.

Lemma well_behaved_dot_get v k : well_behaved (dot_get v k).
Proof.
  destruct v; try (apply well_behaved_raise; discriminate).
  apply well_behaved_ret.
Qed.

Lemma well_behaved_py_iter v : well_behaved (py_iter v).
Proof.
  destruct v; try (apply well_behaved_raise; discriminate);
    apply well_behaved_ret.
Qed.

Lemma well_behaved_on_block block : well_behaved (on_block block).
Proof.
  unfold on_block.
  destruct (negb (is_dict block)); [apply well_behaved_ret|].
  apply well_behaved_bind; [apply well_behaved_dot_get | intros bt].
  destruct (eq_str bt (ustr "tool_use")).
  - repeat (apply well_behaved_bind; [apply well_behaved_dot_get | intros ?]).
    apply well_behaved_on_tool_use.
  - destruct (eq_str bt (ustr "text")); [|apply well_behaved_ret].
    apply well_behaved_bind; [apply well_behaved_dot_get | intros text0].
    destruct (truthy (py_or text0 (JStr [])));
      [apply well_behaved_on_final_message | apply well_behaved_ret].
Qed.

Lemma well_behaved_dispatch obj : well_behaved (dispatch obj).
Proof.
  unfold dispatch.
  apply well_behaved_bind; [apply well_behaved_dot_get | intros t].
  destruct (eq_str t (ustr "stream_event")).
  { destruct (eq_str _ (ustr "text_delta")); [|apply well_behaved_ret].
    destruct (truthy _);
      [apply well_behaved_on_text_delta | apply well_behaved_ret]. }
  destruct (eq_str t (ustr "assistant")).
  { apply well_behaved_bind; [apply well_behaved_dot_get | intros msg0].
    apply well_behaved_bind; [apply well_behaved_dot_get | intros content0].
    apply well_behaved_bind; [apply well_behaved_py_iter | intros blocks].
    apply well_behaved_for_each, well_behaved_on_block. }
  destruct (eq_str t (ustr "result")); [|apply well_behaved_ret].
  apply well_behaved_bind; [apply well_behaved_dot_get | intros is_error].
  apply well_behaved_bind; [apply well_behaved_dot_get | intros result0].
  apply well_behaved_on_result.
Qed.

Lemma well_behaved_loop_body raw : well_behaved (loop_body raw).
Proof.
  unfold loop_body.
  destruct (strip raw); [apply well_behaved_ret|].
  destruct (json_loads _); [apply well_behaved_dispatch|].
  apply well_behaved_bind; [apply well_behaved_flush | intros _].
  apply well_behaved__println.
Qed.

Lemma well_behaved_main_body stdin :
  well_behaved (for_each stdin loop_body ;; flush ;; ret 0%Z).
Proof.
  apply well_behaved_bind;
    [apply well_behaved_for_each, well_behaved_loop_body | intros _].
  apply well_behaved_bind; [apply well_behaved_flush | intros _].
  apply well_behaved_ret.
Qed.

(** X5: whatever the input and however the run ends, every chunk [main]
    writes ends with a newline: the script never leaves a line open on
    standard output. *)
Theorem main_writes_whole_lines (env : str -> option str) (stdin : list str) :
  Forall ends_nl (snd (main env stdin)).
Proof.
  unfold main; destruct (Printer_init env) as [e | p]; [constructor|].
  destruct (well_behaved_main_body stdin p) as (Ho & _).
  unfold output in Ho.
  destruct ((for_each stdin loop_body ;; flush ;; ret 0%Z) p) as [[r p'] out].
  exact Ho.
Qed.



(** X18: the limit read at start-up is never changed: after any input,
    also one that raises, the printer holds the limit it started with. *)
Theorem limit_never_changes (stdin : list str) (p : Printer) :
  _tool_input_max (final (for_each stdin loop_body p)) = _tool_input_max p.
Proof.
  apply (well_behaved_for_each stdin loop_body well_behaved_loop_body).
Qed.

End Dispatcher.

(** ** What the dispatcher skips *)

Section Skipping.
Context `{B : Builtins}.

Lemma bind_unit_noop {C} (m : M unit) (k : unit -> M C) p :
  m p = (inr tt, p, []) -> bind m k p = k tt p.
Proof.
  intros E; unfold bind; rewrite E.
  destruct (k tt p) as [[r p2] o2]; reflexivity.
Qed.

Lemma bind_ext {A C} (m : M A) (k1 k2 : A -> M C) p :
  (forall a q, k1 a q = k2 a q) -> bind m k1 p = bind m k2 p.
Proof.
  intros H; unfold bind.
  destruct (m p) as [[[e | a] p1] o1]; [reflexivity|].
  rewrite H; reflexivity.
Qed.

Lemma loop_body_blank raw p :
  forallb isspace raw = true -> loop_body raw p = (inr tt, p, []).
Proof.
  intros H; apply strip_nil in H; unfold loop_body; rewrite H; reflexivity.
Qed.

Lemma for_each_filter_noop {A} (keep : A -> bool) (body : A -> M unit) l p :
  (forall a q, keep a = false -> body a q = (inr tt, q, [])) ->
  for_each (filter keep l) body p = for_each l body p.
Proof.
  intros Hskip; revert p; induction l as [|a l IH]; intros p; [reflexivity|].
  cbn [filter for_each].
  destruct (keep a) eqn:E; cbn [for_each].
  - apply bind_ext; intros _ q; apply IH.
  - rewrite (@bind_unit_noop _ (body a)) by (apply Hskip; exact E); apply IH.
Qed.

Lemma for_each_skips_blank stdin p :
  for_each (filter (fun raw => negb (forallb isspace raw)) stdin) loop_body p =
  for_each stdin loop_body p.
Proof.
  apply for_each_filter_noop; intros raw q H.
  apply loop_body_blank; destruct (forallb isspace raw); [reflexivity | discriminate].
Qed.

(** X8: lines that hold only whitespace have no effect: removing them
    from the input changes neither what [main] writes nor how it ends. *)
Theorem main_skips_blank_lines (env : str -> option str) (stdin : list str) :
  main env (filter (fun raw => negb (forallb isspace raw)) stdin) =
  main env stdin.
Proof.
  unfold main; destruct (Printer_init env) as [e | p]; [reflexivity|].
  unfold bind at 1 3; rewrite for_each_skips_blank; reflexivity.
Qed.

(** X9: a record whose [type] is none of ["stream_event"],
    ["assistant"] and ["result"] is dropped: nothing is written and the
    printer is left as it was, pending text included. *)
Theorem other_record_ignored (d : list (str * json)) (p : Printer) :
  eq_str (dict_get d (ustr "type")) (ustr "stream_event") = false ->
  eq_str (dict_get d (ustr "type")) (ustr "assistant") = false ->
  eq_str (dict_get d (ustr "type")) (ustr "result") = false ->
  dispatch (JObj d) p = (inr tt, p, []).
Proof.
  intros H1 H2 H3; unfold dispatch, dot_get.
  rewrite bind_ret, H1, H2, H3; reflexivity.
Qed.

Lemma eq_str_stream_event :
  eq_str (JStr (ustr "stream_event")) (ustr "stream_event") = true.
Proof. reflexivity. Qed.

(** X10: a stream event is dropped, with nothing written and the
    printer left as it was, when its delta is not a text delta or when the
    text of the delta is missing, [None], empty or otherwise falsy. *)
Theorem stream_event_without_text_ignored (d : list (str * json)) (p : Printer) :
  dict_get d (ustr "type") = JStr (ustr "stream_event") ->
  eq_str (_get (JObj d) [ustr "event"; ustr "delta"; ustr "type"])
    (ustr "text_delta") = false \/
  truthy (_get (JObj d) [ustr "event"; ustr "delta"; ustr "text"]) = false ->
  dispatch (JObj d) p = (inr tt, p, []).
Proof.
  intros Ht H; unfold dispatch, dot_get.
  rewrite bind_ret, Ht, eq_str_stream_event.
  destruct (eq_str (_get (JObj d) [ustr "event"; ustr "delta"; ustr "type"])
              (ustr "text_delta")) eqn:Ed; [|reflexivity].
  destruct H as [H | H]; [discriminate|].
  unfold py_or; rewrite H; reflexivity.
Qed.

(** ** Text deltas through the dispatcher *)





End Skipping.

(** ** Final messages and assistant records *)

Section Assistant.
Context `{B : Builtins}.


Lemma py_or_dict m : py_or (JObj m) (JObj []) = JObj m.
Proof. destruct m; reflexivity. Qed.


Lemma py_or_falsy v w : truthy v = false -> py_or v w = w.
Proof. intros H; unfold py_or; rewrite H; reflexivity. Qed.

Lemma eq_str_assistant_stream_event :
  eq_str (JStr (ustr "assistant")) (ustr "stream_event") = false.
Proof. reflexivity. Qed.

Lemma eq_str_assistant :
  eq_str (JStr (ustr "assistant")) (ustr "assistant") = true.
Proof. reflexivity. Qed.

Lemma dispatch_assistant d p :
  dict_get d (ustr "type") = JStr (ustr "assistant") ->
  dispatch (JObj d) p =
    (content0 <- dot_get (py_or (dict_get d (ustr "message")) (JObj []))
                   (ustr "content") ;;
     blocks <- py_iter (py_or content0 (JArr [])) ;;
     for_each blocks on_block) p.
Proof.
  intros Ht; unfold dispatch, dot_get at 1 2.
  rewrite bind_ret, Ht, eq_str_assistant_stream_event, eq_str_assistant,
    bind_ret.
  reflexivity.
Qed.





(** X15: an assistant record is dropped, with nothing written and the
    printer left as it was, when its message is missing or falsy, or is a
    dict whose content is missing or falsy. *)
Theorem assistant_without_content_ignored (d : list (str * json)) (p : Printer) :
  dict_get d (ustr "type") = JStr (ustr "assistant") ->
  truthy (dict_get d (ustr "message")) = false \/
  (exists m, dict_get d (ustr "message") = JObj m /\
             truthy (dict_get m (ustr "content")) = false) ->
  dispatch (JObj d) p = (inr tt, p, []).
Proof.
  intros Ht H; rewrite dispatch_assistant by exact Ht.
  destruct H as [H | (m & Hm & H)].
  - rewrite py_or_falsy by exact H; unfold dot_get; rewrite bind_ret.
    reflexivity.
  - rewrite Hm, py_or_dict; unfold dot_get; rewrite bind_ret.
    rewrite py_or_falsy by exact H; reflexivity.
Qed.


(** X17: a text block whose text is missing, [None], empty or otherwise
    falsy is dropped without flushing the pending text; a text block with
    a string that is not empty is rendered by [on_final_message]. *)
Theorem text_block_rendering (d : list (str * json)) (p : Printer) :
  dict_get d (ustr "type") = JStr (ustr "text") ->
  (truthy (dict_get d (ustr "text")) = false ->
   on_block (JObj d) p = (inr tt, p, [])) /\
  (forall s, dict_get d (ustr "text") = JStr s -> s <> [] ->
   on_block (JObj d) p = on_final_message s p).
Proof.
  intros Ht.
  assert (E : on_block (JObj d) p =
    (let text := py_or (dict_get d (ustr "text")) (JStr []) in
     if truthy text then on_final_message (py_str text) else ret tt) p).
  { unfold on_block, dot_get; cbn [is_dict negb].
    rewrite bind_ret, Ht.
    change (eq_str (JStr (ustr "text")) (ustr "tool_use")) with false.
    change (eq_str (JStr (ustr "text")) (ustr "text")) with true.
    cbv iota; rewrite bind_ret; reflexivity. }
  split.
  - intros H; rewrite E; cbv zeta; rewrite py_or_falsy by exact H; reflexivity.
  - intros s Hs Hne; rewrite E, Hs; cbv zeta.
    destruct s; [congruence | reflexivity].
Qed.

End Assistant.

(** ** Instances on the reference built-ins *)

(** X9, an instance. *)
Lemma other_record_ignored_witness :
  let d := [(ustr "type", JStr (ustr "rate_limit_event"))] in
  let p := mkPrinter (ustr "partial") 800 in
  (eq_str (dict_get d (ustr "type")) (ustr "stream_event") = false /\
   eq_str (dict_get d (ustr "type")) (ustr "assistant") = false /\
   eq_str (dict_get d (ustr "type")) (ustr "result") = false) /\
  dispatch (B := Ref.builtins) (JObj d) p = (inr tt, p, []).
Proof.
  intros d p; split; [repeat split|].
  apply (@other_record_ignored Ref.builtins d p); reflexivity.
Defined.

(** X10, an instance. *)
Lemma stream_event_without_text_ignored_witness :
  let d := [(ustr "type", JStr (ustr "stream_event"));
            (ustr "event",
             JObj [(ustr "delta",
                    JObj [(ustr "type", JStr (ustr "input_json_delta"));
                          (ustr "partial_json", JStr (ustr "{"))])])] in
  let p := mkPrinter (ustr "partial") 800 in
  dict_get d (ustr "type") = JStr (ustr "stream_event") /\
  eq_str (_get (JObj d) [ustr "event"; ustr "delta"; ustr "type"])
    (ustr "text_delta") = false /\
  dispatch (B := Ref.builtins) (JObj d) p = (inr tt, p, []).
Proof.
  intros d p; split; [reflexivity | split; [reflexivity|]].
  apply (@stream_event_without_text_ignored Ref.builtins d p);
    [reflexivity | left; reflexivity].
Defined.




(** X15, an instance. *)
Lemma assistant_without_content_ignored_witness :
  let d := [(ustr "type", JStr (ustr "assistant"))] in
  let p := mkPrinter (ustr "partial") 800 in
  (dict_get d (ustr "type") = JStr (ustr "assistant") /\
   truthy (dict_get d (ustr "message")) = false) /\
  dispatch (B := Ref.builtins) (JObj d) p = (inr tt, p, []).
Proof.
  intros d p; split; [split; reflexivity|].
  apply (@assistant_without_content_ignored Ref.builtins d p);
    [reflexivity | left; reflexivity].
Defined.


(** X17, an instance. *)
Lemma text_block_rendering_witness :
  let d := [(ustr "type", JStr (ustr "text")); (ustr "text", JStr [])] in
  let p := mkPrinter (ustr "partial") 800 in
  dict_get d (ustr "type") = JStr (ustr "text") /\
  on_block (B := Ref.builtins) (JObj d) p = (inr tt, p, []).
Proof.
  intros d p; split; [reflexivity|].
  apply (proj1 (@text_block_rendering Ref.builtins d p eq_refl)); reflexivity.
Defined.

(** ** A stream in which no line decodes *)

Section Passthrough.
Context `{B : Builtins}.

Lemma for_each_undecodable stdin p :
  _buf p = [] ->
  Forall (fun raw => strip raw <> [] -> json_loads (strip raw) = None) stdin ->
  for_each stdin loop_body p =
    (inr tt, p,
     map (fun raw => strip raw ++ [NL])
       (filter (fun raw => negb (forallb isspace raw)) stdin)).
Proof.
  intros Hbuf Hall; induction Hall as [|raw stdin Hraw _ IH]; [reflexivity|].
  cbn [for_each filter].
  destruct (forallb isspace raw) eqn:E; cbn [negb].
  - rewrite bind_unit_noop by (apply loop_body_blank; exact E); exact IH.
  - assert (Hne : strip raw <> []).
    { intros H; apply strip_nil in H; congruence. }
    assert (L : loop_body raw p = (inr tt, p, [strip raw ++ [NL]])).
    { rewrite loop_body_undecodable by auto.
      rewrite flush_run, Hbuf; destruct p as [b n]; cbn in Hbuf; subst b.
      reflexivity. }
    erewrite bind_inr by exact L.
    rewrite IH; reflexivity.
Qed.

(** X19: when no line of the input decodes as JSON, [main] exits with
    status 0 and writes the lines that are not blank, in order, each with
    its surrounding whitespace removed and a newline after it. *)
Theorem undecodable_stream_passthrough
  (env : str -> option str) (p : Printer) (stdin : list str) :
  Printer_init env = inr p ->
  Forall (fun raw => strip raw <> [] -> json_loads (strip raw) = None) stdin ->
  main env stdin =
    (inr 0%Z,
     map (fun raw => strip raw ++ [NL])
       (filter (fun raw => negb (forallb isspace raw)) stdin)).
Proof.
  intros Hp Hall.
  assert (Hbuf : _buf p = []).
  { unfold Printer_init in Hp; destruct (int_of_str _); inversion Hp; reflexivity. }
  unfold main; rewrite Hp.
  erewrite bind_inr by (apply for_each_undecodable; assumption).
  unfold_run; unfold bind; rewrite flush_run, Hbuf.
  cbn [ret app]; rewrite app_nil_r; reflexivity.
Qed.

End Passthrough.

(** X19, an instance. *)
Lemma undecodable_stream_passthrough_witness :
  let stdin := [ustr "  oops" ++ [NL]; [NL]; dq "{'type':" ++ [NL]] in
  let p := mkPrinter [] 800 in
  (Printer_init (B := Ref.builtins) no_env = inr p /\
   Forall (fun raw => strip raw <> [] ->
                      @json_loads Ref.builtins (strip raw) = None) stdin) /\
  main (B := Ref.builtins) no_env stdin =
    (inr 0%Z, [ustr "oops" ++ [NL]; dq "{'type':" ++ [NL]]).
Proof.
  intros stdin p.
  assert (Hp : Printer_init (B := Ref.builtins) no_env = inr p)
    by (vm_compute; reflexivity).
  assert (Hall : Forall (fun raw => strip raw <> [] ->
                      @json_loads Ref.builtins (strip raw) = None) stdin)
    by (repeat constructor; intros _; vm_compute; reflexivity).
  split; [split; assumption|].
  exact (@undecodable_stream_passthrough Ref.builtins no_env p stdin Hp Hall).
Defined.
